(** * TemperatureLogging: the measurement file reader

    A shallow embedding of [temperature_logging/fetch_data.py]
    (class [MeasurementFileReader]) and the properties of its load and
    query operations.

    The reader keeps two mutable attributes, [measurement_data] and
    [locations]; its methods are embedded in a state-and-exception monad
    over the record of these attributes, so that what a method leaves behind
    when it raises is part of its meaning.  The pandas and pathlib calls the
    reader makes are embedded by their behaviour on the values the reader
    hands them. *)

From Stdlib Require Import ZArith Lia.
From stdpp Require Import base tactics option list sorting strings gmap.

Local Open Scope string_scope.
Local Open Scope Z_scope.

(** ** Python values the reader handles *)

Module Py.

(** The exceptions that reach the caller of the reader. *)
Inductive exn : Type :=
  | FileNotFoundError
  | IsADirectoryError
  | ParserError
  | ValueError
  | AttributeError
  | IndexError
  | KeyError.

#[global] Instance exn_eq_dec : EqDecision exn.
Proof. solve_decision. Defined.

(** What a call does: it returns a value or raises. *)
Inductive outcome (A : Type) : Type :=
  | Returned (a : A)
  | Raised (e : exn).
Arguments Returned {A} a.
Arguments Raised {A} e.

(** Truth value of [x] in [if x:] for an optional list ([None] and [[]]
    are false). *)
Definition truthy_list {A} (x : option (list A)) : bool :=
  match x with
  | Some (_ :: _) => true
  | _ => false
  end.

(** Truth value of an optional string ([None] and [''] are false). *)
Definition truthy_str (x : option string) : bool :=
  match x with
  | Some s => negb (String.eqb s "")
  | None => false
  end.

(** Python's [a[i:j]] for [0 <= i], [0 <= j]: empty when [j <= i]. *)
Definition slice {A} (i j : nat) (l : list A) : list A :=
  take (j - i)%nat (drop i l).

End Py.

Export Py.

(** ** Data model *)

(** A [datetime] is a point on the time axis; only its order matters to the
    reader, so it is an integer count of time units. *)
Abbreviation datetime := Z (only parsing).

(** A numeric cell.  No operation of the reader looks inside the measured
    values, they are carried along unchanged. *)
Abbreviation cell := Z (only parsing).

(** One row of what [pd.read_csv(..., usecols=[1, 2, 3])] returns: the three
    consulted columns, the first of which [set_index] turns into the row
    label. *)
Record RawRow : Type := mkRaw {
  raw_stamp : datetime;
  raw_c1 : cell;
  raw_c2 : cell
}.

(** One row of the reader's frames: the label, the two data columns and the
    added [location] column. *)
Record Row : Type := mkRow {
  index : datetime;
  c1 : cell;
  c2 : cell;
  location : string
}.

#[global] Instance Row_eq_dec : EqDecision Row.
Proof. solve_decision. Defined.

Abbreviation DataFrame := (list Row) (only parsing).

(** ** The file system as the reader sees it *)

(** A path names nothing, a directory with its entry names in enumeration
    order, or a regular file.  A regular file is abstracted to what
    [pd.read_csv] with the reader's [csv_settings], [usecols=[1, 2, 3]],
    [parse_dates=[0]] and [dayfirst=True] makes of it: the parsed rows, or
    the exception it raises on malformed content. *)
Inductive fs_node : Type :=
  | Absent
  | Directory (entries : list string)
  | CsvFile (parsed : outcome (list RawRow)).

Definition FileSystem := string → fs_node.

Module Pathlib.

(** [Path(folder) / name] *)
Definition joinpath (folder name : string) : string :=
  folder +:+ "/" +:+ name.

(** The last [n] characters of [s]. *)
Definition last_chars (n : nat) (s : string) : string :=
  String.substring (String.length s - n) n s.

(** [fnmatch(name, '*.csv')] *)
Definition matches_csv (name : string) : bool :=
  (4 <=? String.length name)%nat && String.eqb (last_chars 4 name) ".csv".

(** [Path.stem] of a name matching ['*.csv']: the final suffix is dropped
    unless the name is the suffix alone. *)
Definition stem (name : string) : string :=
  if (4 <? String.length name)%nat
  then String.substring 0 (String.length name - 4) name
  else name.

(** [Path(folder).glob('*.csv')]: the matching entries of a directory; a
    path that is missing or is not a directory yields nothing and raises
    nothing. *)
Definition glob_csv (fs : FileSystem) (folder : string) : list string :=
  match fs folder with
  | Directory entries => filter (λ n, Is_true (matches_csv n)) entries
  | _ => []
  end.

End Pathlib.

Module Pandas.

(** [pd.read_csv(path, ...)] *)
Definition read_csv (fs : FileSystem) (path : string) : outcome (list RawRow) :=
  match fs path with
  | Absent => Raised FileNotFoundError
  | Directory _ => Raised IsADirectoryError
  | CsvFile parsed => parsed
  end.

(** [df.set_index(df.columns[0])] followed by
    [df['location'] = [loc] * df.shape[0]]. *)
Definition with_location (loc : string) (rows : list RawRow) : DataFrame :=
  (λ r, mkRow (raw_stamp r) (raw_c1 r) (raw_c2 r) loc) <$> rows.

(** [pd.concat(frames)]: the rows of the frames one after the other;
    [ValueError] ("No objects to concatenate") on an empty list. *)
Definition concat (frames : list DataFrame) : outcome DataFrame :=
  match frames with
  | [] => Raised ValueError
  | _ => Returned (mjoin frames)
  end.

(** [index.is_monotonic_increasing] *)
Definition is_monotonic_increasing (keys : list datetime) : bool :=
  bool_decide (Sorted Z.le keys).

Definition is_monotonic_decreasing (keys : list datetime) : bool :=
  bool_decide (Sorted Z.ge keys).

(** [index.searchsorted(label, side)] on an increasing index. *)
Definition searchsorted_left (keys : list datetime) (label : datetime) : nat :=
  length (filter (λ k, k < label) keys).

Definition searchsorted_right (keys : list datetime) (label : datetime) : nat :=
  length (filter (λ k, k ≤ label) keys).

(** Positions at which [label] occurs. *)
Definition positions (keys : list datetime) (label : datetime) : list nat :=
  fst <$> filter (λ p, p.2 = label) (zip (seq 0 (length keys)) keys).

(** Whether the positions [p :: ps] are consecutive. *)
Fixpoint consecutive (p : nat) (ps : list nat) : bool :=
  match ps with
  | [] => true
  | q :: ps' => (q =? S p)%nat && consecutive q ps'
  end.

Inductive side := Left | Right.

(** [Index.get_slice_bound(label, side)]: on an increasing index a binary
    search; otherwise the label is looked up, a missing label is a
    [KeyError] (unless the index is decreasing, where the search runs on
    the reversed index), and a label whose occurrences are scattered is a
    [KeyError] as well. *)
Definition get_slice_bound (keys : list datetime) (label : datetime) (s : side)
  : outcome nat :=
  if is_monotonic_increasing keys then
    Returned (match s with
              | Left => searchsorted_left keys label
              | Right => searchsorted_right keys label
              end)
  else
    match positions keys label with
    | [] =>
        if is_monotonic_decreasing keys then
          Returned (match s with
                    | Left => length keys - searchsorted_right (reverse keys) label
                    | Right => length keys - searchsorted_left (reverse keys) label
                    end)%nat
        else Raised KeyError
    | p :: ps =>
        if consecutive p ps then
          Returned (match s with
                    | Left => p
                    | Right => S (List.last ps p)
                    end)
        else Raised KeyError
    end.

(** [df.loc[start:end]] with two [datetime] labels: the rows between the
    left bound of [start] and the right bound of [end]. *)
Definition loc_slice (df : DataFrame) (start stop : datetime) : outcome DataFrame :=
  let keys := index <$> df in
  match get_slice_bound keys start Left with
  | Raised e => Raised e
  | Returned i =>
      match get_slice_bound keys stop Right with
      | Raised e => Raised e
      | Returned j => Returned (slice i j df)
      end
  end.

(** [df[df.location.isin(locations)]] *)
Definition isin_location (locations : list string) (df : DataFrame) : DataFrame :=
  filter (λ r, location r ∈ locations) df.

(** [np.argsort(keys, kind='quicksort')], the kernel behind
    [sort_index()] with its default [kind]: it returns the positions of
    [keys] in an order that makes the keys ascend.  Which of several equal
    keys comes first is the kernel's business: pandas documents only
    ['mergesort'] and ['stable'] as stable. *)
Class Argsort := argsort : list datetime → list nat.

(** What every kernel guarantees. *)
Class ArgsortSpec (K : Argsort) : Prop := {
  argsort_perm keys : argsort keys ≡ₚ seq 0 (length keys);
  argsort_sorted keys : Sorted Z.le (omap (λ i, keys !! i) (argsort keys))
}.

(** [df.take(indexer)] *)
Definition take_rows (indexer : list nat) (df : DataFrame) : DataFrame :=
  omap (λ i, df !! i) indexer.

(** [df.sort_index()]: a frame whose index already ascends is returned as
    it is, any other is reordered by the kernel's indexer. *)
Definition sort_index `{Argsort} (df : DataFrame) : DataFrame :=
  if is_monotonic_increasing (index <$> df) then df
  else take_rows (argsort (index <$> df)) df.

End Pandas.

Export Pathlib Pandas.

(** ** Sorting kernels *)

(** The kernel numpy runs for [argsort(kind='quicksort')] on [datetime64]
    keys ([aquicksort_] of numpy's npysort): an introsort over the array
    [tosort] of positions.  Ranges of more than [SMALL_QUICKSORT + 1]
    positions are partitioned around the median of their first, middle and
    last key, shorter ones are sorted by insertion, and a range popped from
    the stack with its depth budget used up is sorted by [aheapsort_].  The
    loops of the C code run here on fuel that the length of the array
    covers. *)
Module Numpy.

Definition SMALL_QUICKSORT : nat := 16.

(** [npy_get_msb] *)
Definition npy_get_msb (num : nat) : Z := Z.log2 (Z.of_nat num).

Section kernel.

Local Open Scope nat_scope.

(** The keys [v]; [tosort] is threaded through as [a]. *)
Variable v : list datetime.

(** [v[a[p]]] *)
Definition key (a : list nat) (p : nat) : datetime := v !!! (a !!! p).

(** [INTP_SWAP(a[i], a[j])] *)
Definition swap (a : list nat) (i j : nat) : list nat :=
  <[j := a !!! i]> (<[i := a !!! j]> a).

(** [do { ++pi; } while (v[*pi] < vp);] entered with [pi] already
    advanced once. *)
Fixpoint scan_up (fuel : nat) (a : list nat) (vp : datetime) (pi : nat) : nat :=
  match fuel with
  | O => pi
  | S fuel' =>
      if bool_decide (key a pi < vp)%Z then scan_up fuel' a vp (S pi) else pi
  end.

(** [do { --pj; } while (vp < v[*pj]);] entered with [pj] already
    lowered once. *)
Fixpoint scan_down (fuel : nat) (a : list nat) (vp : datetime) (pj : nat) : nat :=
  match fuel with
  | O => pj
  | S fuel' =>
      if bool_decide (vp < key a pj)%Z then scan_down fuel' a vp (pj - 1) else pj
  end.

(** The [for (;;)] loop of the partition. *)
Fixpoint partition_loop (fuel : nat) (a : list nat) (vp : datetime)
    (pi pj : nat) : list nat * nat :=
  match fuel with
  | O => (a, pi)
  | S fuel' =>
      let pi := scan_up (length a) a vp (S pi) in
      let pj := scan_down (length a) a vp (pj - 1) in
      if (pj <=? pi) then (a, pi)
      else partition_loop fuel' (swap a pi pj) vp pi pj
  end.

(** One partition of the range [pl..pr]; returns the array and the final
    place [pi] of the pivot. *)
Definition partition (a : list nat) (pl pr : nat) : list nat * nat :=
  let pm := (pl + (pr - pl) / 2) in
  let a := if bool_decide (key a pm < key a pl)%Z then swap a pm pl else a in
  let a := if bool_decide (key a pr < key a pm)%Z then swap a pr pm else a in
  let a := if bool_decide (key a pm < key a pl)%Z then swap a pm pl else a in
  let vp := key a pm in
  let a := swap a pm (pr - 1) in
  let '(a, pi) := partition_loop (length a) a vp pl (pr - 1) in
  (swap a pi (pr - 1), pi).

(** [while (pj > pl && vp < v[*pk]) { *pj-- = *pk--; }] *)
Fixpoint shift_up (fuel : nat) (a : list nat) (vp : datetime)
    (pl pj : nat) : list nat * nat :=
  match fuel with
  | O => (a, pj)
  | S fuel' =>
      if bool_decide (pl < pj) && bool_decide (vp < key a (pj - 1)%nat)%Z
      then shift_up fuel' (<[pj := a !!! (pj - 1)]> a) vp pl (pj - 1)
      else (a, pj)
  end.

(** The insertion sort that finishes a short range [pl..pr]. *)
Definition insertion_sort (a : list nat) (pl pr : nat) : list nat :=
  foldl (λ a pi,
           let vi := a !!! pi in
           let '(a', pj) := shift_up (length a) a (v !!! vi) pl pi in
           <[pj := vi]> a')
        a (seq (S pl) (pr - pl)).

(** The sift loop of [aheapsort_] on the range that starts at [pl]: the
    heap is one-based, its slot [k] is position [pl + k - 1]. *)
Fixpoint sift (fuel : nat) (a : list nat) (pl n tmp i j : nat) : list nat :=
  let slot k := (pl + k - 1) in
  match fuel with
  | O => <[slot i := tmp]> a
  | S fuel' =>
      if (j <=? n) then
        let j := if (j <? n) && bool_decide (key a (slot j) < key a (slot (j + 1)%nat))%Z
                 then (j + 1) else j in
        if bool_decide (v !!! tmp < key a (slot j))%Z
        then sift fuel' (<[slot i := a !!! slot j]> a) pl n tmp j (j + j)
        else <[slot i := tmp]> a
      else <[slot i := tmp]> a
  end.

(** [aheapsort_(v, pl, pr - pl + 1)] *)
Definition heapsort (a : list nat) (pl pr : nat) : list nat :=
  let slot k := (pl + k - 1) in
  let n := (pr - pl + 1) in
  let a := foldl (λ a l, sift (length a) a pl n (a !!! slot l) l (l + l))
                 a (reverse (seq 1 (n / 2))) in
  foldl (λ a m,
           let tmp := a !!! slot m in
           let a := <[slot m := a !!! slot 1]> a in
           sift (length a) a pl (m - 1) tmp 1 2)
        a (reverse (seq 2 (n - 1))).

(** The main loop on the range [pl..pr].  [popped] tells whether the
    range comes from the stack (or is the whole array), where the depth
    budget is looked at; the smaller part of a partition is continued
    with, the larger one is pushed with the lowered budget. *)
Fixpoint introsort (fuel : nat) (popped : bool) (cdepth : Z) (a : list nat)
    (pl pr : nat) : list nat :=
  match fuel with
  | O => a
  | S fuel' =>
      if popped && (cdepth <? 0)%Z then heapsort a pl pr
      else if (SMALL_QUICKSORT <? pr - pl) then
        let '(a, pi) := partition a pl pr in
        let cdepth := (cdepth - 1)%Z in
        if (pi - pl <? pr - pi) then
          let a := introsort fuel' false cdepth a pl (pi - 1) in
          introsort fuel' true cdepth a (pi + 1) pr
        else
          let a := introsort fuel' false cdepth a (pi + 1) pr in
          introsort fuel' true cdepth a pl (pi - 1)
      else insertion_sort a pl pr
  end.

End kernel.

(** [np.argsort(keys, kind='quicksort')] *)
Definition aquicksort : Argsort := λ keys,
  let num := length keys in
  introsort keys (S num) true (npy_get_msb num * 2) (seq 0 num) 0%nat (num - 1)%nat.

End Numpy.

(** A kernel that merges: positions are paired with their keys and the pairs
    are merged by key. *)
Definition key_le (a b : datetime * nat) : Prop := a.1 ≤ b.1.

#[global] Instance key_le_dec : RelDecision key_le.
Proof. intros a b. unfold key_le. apply _. Defined.

Definition merge_argsort : Argsort := λ keys,
  snd <$> merge_sort key_le (zip keys (seq 0 (length keys))).


(** ** The reader and its monad *)

(** The attributes of a [MeasurementFileReader] instance. *)
Record MeasurementFileReader : Type := mkReader {
  data_folder_path : string;
  measurement_data : option DataFrame;
  locations : option (list string)
}.

(** [MeasurementFileReader(data_folder_path)] *)
Definition init (data_folder_path : string) : MeasurementFileReader :=
  mkReader data_folder_path None None.

(** A method body: from the instance before the call to what the call does
    and the instance after it.  When the call raises, the instance is the
    one the exception leaves behind. *)
Definition M (A : Type) : Type :=
  MeasurementFileReader → outcome A * MeasurementFileReader.

#[global] Instance M_ret : MRet M := λ A a self, (Returned a, self).

#[global] Instance M_bind : MBind M := λ A B k m self,
  match m self with
  | (Returned a, self') => k a self'
  | (Raised e, self') => (Raised e, self')
  end.

(** [raise e] *)
Definition raise {A} (e : exn) : M A := λ self, (Raised e, self).

(** A library call, whose exception propagates. *)
Definition call {A} (o : outcome A) : M A := λ self, (o, self).

(** [self.a] *)
Definition attr {A} (a : MeasurementFileReader → A) : M A :=
  λ self, (Returned (a self), self).

(** [self.measurement_data = df] *)
Definition set_measurement_data (df : DataFrame) : M unit := λ self,
  (Returned (), mkReader (data_folder_path self) (Some df) (locations self)).

(** [self.locations = locs] *)
Definition set_locations (locs : list string) : M unit := λ self,
  (Returned (), mkReader (data_folder_path self) (measurement_data self) (Some locs)).

(** [o.a] where [o] may be [None]: reading an attribute of [None] raises
    [AttributeError]. *)
Definition deref {A} (o : option A) : M A :=
  match o with
  | Some a => mret a
  | None => raise AttributeError
  end.

(** [index[0]] and [index[-1]]: [IndexError] on an empty index. *)
Definition first_label (df : DataFrame) : outcome datetime :=
  match df with
  | [] => Raised IndexError
  | r :: _ => Returned (index r)
  end.

Definition last_label (df : DataFrame) : outcome datetime :=
  match df with
  | [] => Raised IndexError
  | r :: df' => Returned (index (List.last df' r))
  end.

Section reader.

Context `{K : Argsort}.
Variable fs : FileSystem.

(** [MeasurementFileReader.read].  The frame is parsed first; when
    [pd.read_csv] raises nothing has been assigned yet.  The assignments
    that follow cannot raise, so the attribute is written once, with the
    frame the method returns. *)
Definition read (file_name : string) (location : option string) : M DataFrame :=
  folder ← attr data_folder_path;
  let file_path := joinpath folder (file_name +:+ ".csv") in
  rows ← call (read_csv fs file_path);
  let df :=
    if truthy_str location
    then with_location (default file_name location) rows
    else with_location file_name rows in
  set_measurement_data df;;
  mret df.

(** [MeasurementFileReader.batch_read] *)
Definition batch_read (file_names locations : option (list string)) : M DataFrame :=
  file_names ← match file_names with
               | None =>
                   folder ← attr data_folder_path;
                   mret (stem <$> glob_csv fs folder)
               | Some file_names => mret file_names
               end;
  df_lst ← (if truthy_list locations then
              df_lst ← mapM (λ p, read p.1 (Some p.2))
                            (zip file_names (default [] locations));
              set_locations (default [] locations);;
              mret df_lst
            else
              df_lst ← mapM (λ fn, read fn None) file_names;
              set_locations file_names;;
              mret df_lst);
  df ← call (concat df_lst);
  set_measurement_data (sort_index df);;
  attr_df ← attr measurement_data;
  deref attr_df.

(** [MeasurementFileReader.get_datetime_limits] *)
Definition get_datetime_limits : M (datetime * datetime) :=
  data ← attr measurement_data;
  df ← deref data;
  start ← call (first_label df);
  data ← attr measurement_data;
  df ← deref data;
  stop ← call (last_label df);
  mret (start, stop).

(** [MeasurementFileReader.get_measurements].  The result is the frame, or
    [None] when the attribute is still [None] and nothing dereferences
    it. *)
Definition get_measurements (start stop : option datetime)
    (locations : option (list string)) : M (option DataFrame) :=
  df ← attr measurement_data;
  (* [if start and end:] a [datetime] is always true, [None] is false *)
  df ← match start, stop with
       | Some s, Some e =>
           data ← attr measurement_data;
           d ← deref data;
           sl ← call (loc_slice d s e);
           mret (Some sl)
       | _, _ => mret df
       end;
  df ← (if truthy_list locations then
          d ← deref df;
          mret (Some (isin_location (default [] locations) d))
        else mret df);
  mret df.

End reader.

(** ** What a load reads *)

Section sources.

Variable fs : FileSystem.
Variable self : MeasurementFileReader.

(** What [pd.read_csv] makes of the file that [read] opens for
    [file_name]. *)
Definition csv_of (file_name : string) : outcome (list RawRow) :=
  read_csv fs (joinpath (data_folder_path self) (file_name +:+ ".csv")).

(** The file names a load works on: the given ones, or the stems of the
    folder's csv files. *)
Definition discovered (file_names : option (list string)) : list string :=
  match file_names with
  | None => stem <$> glob_csv fs (data_folder_path self)
  | Some file_names => file_names
  end.

(** The [(file_name, location)] arguments of the calls of [read] that a
    load makes, in order. *)
Definition pairing (file_names : list string) (locations : option (list string))
  : list (string * option string) :=
  if truthy_list locations
  then prod_map id Some <$> zip file_names (default [] locations)
  else (λ fn, (fn, None)) <$> file_names.

(** What a load assigns to [self.locations]. *)
Definition recorded (file_names : list string) (locations : option (list string))
  : list string :=
  if truthy_list locations then default [] locations else file_names.

(** The value of the [location] column that [read] writes. *)
Definition label_of (p : string * option string) : string :=
  if truthy_str p.2 then default p.1 p.2 else p.1.

(** The frame [read] returns for one pair (no rows when the file does not
    parse). *)
Definition frame_of (p : string * option string) : DataFrame :=
  match csv_of p.1 with
  | Returned rows => with_location (label_of p) rows
  | Raised _ => []
  end.

Definition parses (file_name : string) : Prop :=
  ∃ rows, csv_of file_name = Returned rows.

(** The frames of the pairs one after the other: the argument of
    [sort_index] in a load that gets that far. *)
Definition concatenated (pairs : list (string * option string)) : DataFrame :=
  mjoin (frame_of <$> pairs).

End sources.

(** The attribute [measurement_data] after the calls of [read] for [pairs]
    have all returned. *)
Definition data_after fs (self : MeasurementFileReader)
    (pairs : list (string * option string)) : option DataFrame :=
  match last pairs with
  | Some p => Some (frame_of fs self p)
  | None => measurement_data self
  end.

(** Records with equal timestamps stand in [output] in the order they have
    in [input]. *)
Definition keeps_input_order (input output : DataFrame) : Prop :=
  ∀ t, filter (λ r, index r = t) output = filter (λ r, index r = t) input.

(** The rows a date range selects. *)
Definition in_range (s e : datetime) (df : DataFrame) : DataFrame :=
  filter (λ r, s ≤ index r ≤ e) df.

(** Whether [get_measurements] dereferences the table: it does for a date
    range and for a list of locations. *)
Definition dereferences (start stop : option datetime)
    (locations : option (list string)) : bool :=
  match start, stop with
  | Some _, Some _ => true
  | _, _ => truthy_list locations
  end.

(** ** Example folders *)

(** Ten readings taken at the instants [1..10]. *)
Definition ten_readings (base : cell) : list RawRow :=
  (λ n, mkRaw (Z.of_nat n) (base + Z.of_nat n) 0) <$> seq 1 10.

(** [data] holds the files of two sites and a text file; [inbox] holds a
    good file and a malformed one; [logs] holds the files of two sensors
    that log at the same instants; [empty] holds no csv file; nothing else
    exists.  Timestamps in [data] are written [ddhhmm]. *)
Definition fs_demo : FileSystem := λ path,
  if String.eqb path "data" then Directory ["A.csv"; "notes.txt"; "B.csv"]
  else if String.eqb path "data/A.csv" then
    CsvFile (Returned [mkRaw 30800 105 0; mkRaw 40800 112 0])
  else if String.eqb path "data/B.csv" then
    CsvFile (Returned [mkRaw 30900 98 0])
  else if String.eqb path "inbox" then Directory ["A.csv"; "bad.csv"]
  else if String.eqb path "inbox/A.csv" then CsvFile (Returned [mkRaw 30800 105 0])
  else if String.eqb path "inbox/bad.csv" then CsvFile (Raised ParserError)
  else if String.eqb path "logs" then Directory ["hall.csv"; "attic.csv"]
  else if String.eqb path "logs/hall.csv" then CsvFile (Returned (ten_readings 200))
  else if String.eqb path "logs/attic.csv" then CsvFile (Returned (ten_readings 100))
  else if String.eqb path "empty" then Directory ["readme.txt"]
  else Absent.

(** The order of the records by timestamp. *)
Definition index_le (r1 r2 : Row) : Prop := index r1 ≤ index r2.

(** ** Charts *)



(** [a[i]] on a sequence: a negative [i] counts from the end, an [i] outside
    the sequence is an [IndexError]. *)
Definition getitem {A} (a : list A) (i : Z) : outcome A :=
  let n := Z.of_nat (length a) in
  let pos := if i <? 0 then n + i else i in
  if (0 <=? pos) && (pos <? n) then
    match a !! Z.to_nat pos with
    | Some x => Returned x
    | None => Raised IndexError
    end
  else Raised IndexError.



(** ** The dashboard script *)

(** An exception of the script: one of the reader's, or the [TypeError] of
    subscripting [None]. *)
Inductive script_exn : Type :=
  | ReaderError (e : exn)
  | TypeError.

(** What the script hands to the two sidebar widgets. *)
Record Sidebar : Type := mkSidebar {
  date_value : Z * Z;
  date_min_value : Z;
  date_max_value : Z;
  location_options : list string;
  location_default : string
}.

Section script.

Context `{K : Argsort}.
Variable fs : FileSystem.

(** The number of time units in a day: dates are day numbers. *)
Variable ticks_per_day : Z.

(** [t.date()] *)
Definition date_of (t : datetime) : Z := t `div` ticks_per_day.


(** [Path('./data')]: pathlib drops the leading [./], the path is [data]. *)
Definition script_folder : string := "data".

(** [get_measurement_file_reader()], as computed on its first call. *)
Definition get_measurement_file_reader : outcome MeasurementFileReader :=
  match batch_read fs None None (init script_folder) with
  | (Returned _, mfr) => Returned mfr
  | (Raised e, _) => Raised e
  end.

(** The script up to its widgets: the reader, the limits of the log and what
    the date picker and the location picker are set up with. *)
Definition startup : script_exn + MeasurementFileReader * Sidebar :=
  match get_measurement_file_reader with
  | Raised e => inl (ReaderError e)
  | Returned mfr =>
      match get_datetime_limits mfr with
      | (Raised e, _) => inl (ReaderError e)
      | (Returned (log_start, log_end), mfr) =>
          match locations mfr with
          | None => inl TypeError
          | Some options =>
              match getitem options 0 with
              | Raised e => inl (ReaderError e)
              | Returned first_location =>
                  inr (mfr,
                       mkSidebar (date_of log_start, date_of log_end)
                         (date_of log_start) (date_of log_end)
                         options first_location)
              end
          end
      end
  end.


End script.

(** * Properties *)

(** ** Running method bodies *)

Lemma bind_Returned {A B} (m : M A) (k : A → M B) self a self' :
  m self = (Returned a, self') → (m ≫= k) self = k a self'.
Proof. intros Hm. unfold mbind, M_bind. by rewrite Hm. Qed.

Lemma bind_Raised {A B} (m : M A) (k : A → M B) self e self' :
  m self = (Raised e, self') → (m ≫= k) self = (Raised e, self').
Proof. intros Hm. unfold mbind, M_bind. by rewrite Hm. Qed.

(** [read] parses, then stores and returns the labelled frame. *)
Lemma read_run `{K : Argsort} fs fn loc self :
  read fs fn loc self =
    match csv_of fs self fn with
    | Returned rows =>
        let df := with_location (label_of (fn, loc)) rows in
        (Returned df, mkReader (data_folder_path self) (Some df) (locations self))
    | Raised e => (Raised e, self)
    end.
Proof.
  unfold read, csv_of, label_of, mbind, M_bind, attr, call, set_measurement_data; simpl.
  destruct (read_csv _ _); [|done]. by destruct (truthy_str loc).
Qed.

Lemma mapM_fmap {A B C} (f : B → M C) (g : A → B) (l : list A) :
  mapM f (g <$> l) = mapM (f ∘ g) l.
Proof.
  induction l as [|x l IH]; [done|].
  rewrite fmap_cons. cbn [mapM]. by rewrite IH.
Qed.

Lemma csv_of_folder fs self self' fn :
  data_folder_path self' = data_folder_path self →
  csv_of fs self' fn = csv_of fs self fn.
Proof. unfold csv_of. by intros ->. Qed.

Lemma frame_of_folder fs self self' p :
  data_folder_path self' = data_folder_path self →
  frame_of fs self' p = frame_of fs self p.
Proof. intros H. unfold frame_of. by rewrite (csv_of_folder _ _ _ _ H). Qed.

Lemma frame_of_hit fs self p rows :
  csv_of fs self p.1 = Returned rows →
  frame_of fs self p = with_location (label_of p) rows.
Proof. intros H. unfold frame_of. by rewrite H. Qed.

Lemma data_after_cons fs self self' p pairs :
  data_folder_path self' = data_folder_path self →
  measurement_data self' = Some (frame_of fs self p) →
  data_after fs self' pairs = data_after fs self (p :: pairs).
Proof.
  intros Hf Hd. unfold data_after. destruct pairs as [|q pairs]; [done|].
  change (last (p :: q :: pairs)) with (last (q :: pairs)).
  destruct (last (q :: pairs)) eqn:Hl; [|by apply last_None in Hl].
  f_equal. by apply frame_of_folder.
Qed.

Lemma read_all_Returned `{K : Argsort} fs pairs self :
  Forall (λ p, parses fs self p.1) pairs →
  mapM (λ p, read fs p.1 p.2) pairs self =
    (Returned (frame_of fs self <$> pairs),
     mkReader (data_folder_path self) (data_after fs self pairs) (locations self)).
Proof.
  revert self. induction pairs as [|p pairs IH]; intros self Hall.
  { by destruct self. }
  apply Forall_cons in Hall as [[rows Hp] Hall].
  cbn [mapM]. erewrite bind_Returned; last first.
  { rewrite read_run, Hp. destruct p; done. }
  set (self1 := mkReader _ _ _).
  assert (Hf : data_folder_path self1 = data_folder_path self) by done.
  erewrite bind_Returned; last first.
  { apply IH. eapply Forall_impl; [exact Hall|]. intros q [r Hq]. exists r.
    by rewrite (csv_of_folder _ _ _ _ Hf). }
  unfold mret, M_ret. cbn [fmap list_fmap].
  rewrite (frame_of_hit _ _ _ _ Hp).
  rewrite (data_after_cons fs self self1 p pairs Hf); last first.
  { cbn. by rewrite (frame_of_hit _ _ _ _ Hp). }
  reflexivity.
Qed.

Lemma read_all_Raised `{K : Argsort} fs ok p rest e self :
  Forall (λ p, parses fs self p.1) ok →
  csv_of fs self p.1 = Raised e →
  mapM (λ p, read fs p.1 p.2) (ok ++ p :: rest) self =
    (Raised e,
     mkReader (data_folder_path self) (data_after fs self ok) (locations self)).
Proof.
  revert self. induction ok as [|q ok IH]; intros self Hall Hp.
  { cbn [app mapM]. erewrite bind_Raised; [|by rewrite read_run, Hp].
    by destruct self. }
  apply Forall_cons in Hall as [[rows Hq] Hall].
  cbn [app mapM]. erewrite bind_Returned; last first.
  { rewrite read_run, Hq. destruct q; done. }
  set (self1 := mkReader _ _ _).
  assert (Hf : data_folder_path self1 = data_folder_path self) by done.
  erewrite bind_Raised; last first.
  { apply IH.
    - eapply Forall_impl; [exact Hall|]. intros r [rs Hr]. exists rs.
      by rewrite (csv_of_folder _ _ _ _ Hf).
    - by rewrite (csv_of_folder _ _ _ _ Hf). }
  rewrite (data_after_cons fs self self1 q ok Hf); [done|].
  cbn. by rewrite (frame_of_hit _ _ _ _ Hq).
Qed.


(** ** The shape of a load *)

(** Unfolds the monad operations of a method body. *)
Ltac run_body :=
  repeat (progress unfold mbind, M_bind, mret, M_ret, raise, call, attr, deref,
            set_measurement_data, set_locations; cbn).

(** A load runs the calls of [read] for its pairs, records the locations,
    concatenates and sorts. *)
Lemma batch_read_unfold `{K : Argsort} fs file_names locs self :
  let fns := discovered fs self file_names in
  batch_read fs file_names locs self =
    match mapM (λ p, read fs p.1 p.2) (pairing fns locs) self with
    | (Raised e, self') => (Raised e, self')
    | (Returned frames, self') =>
        match concat frames with
        | Raised e =>
            (Raised e,
             mkReader (data_folder_path self') (measurement_data self')
                      (Some (recorded fns locs)))
        | Returned df =>
            (Returned (sort_index df),
             mkReader (data_folder_path self') (Some (sort_index df))
                      (Some (recorded fns locs)))
        end
    end.
Proof.
  intros fns. unfold batch_read.
  erewrite (bind_Returned _ _ self fns self); last first.
  { subst fns. by destruct file_names. }
  unfold pairing, recorded. destruct (truthy_list locs) eqn:Ht.
  - rewrite mapM_fmap.
    unfold mbind at 1, M_bind at 1. unfold mbind at 1, M_bind at 1.
    change ((λ p, read fs p.1 p.2) ∘ prod_map id Some)
      with (λ p : string * string, read fs p.1 (Some p.2)).
    destruct (@mapM M _ _ _ _ _ _ self) as [[frames|e] self']; [|done].
    run_body. by destruct (concat frames).
  - rewrite mapM_fmap.
    unfold mbind at 1, M_bind at 1. unfold mbind at 1, M_bind at 1.
    change ((λ p, read fs p.1 p.2) ∘ (λ fn : string, (fn, None)))
      with (λ fn : string, read fs fn None).
    destruct (@mapM M _ _ _ _ _ _ self) as [[frames|e] self']; [|done].
    run_body. by destruct (concat frames).
Qed.

(** Either every file of a load parses, or there is a first one that does
    not. *)
Lemma first_failure fs self (pairs : list (string * option string)) :
  Forall (λ p, parses fs self p.1) pairs ∨
  ∃ ok p rest e, pairs = (ok ++ p :: rest)%list ∧
    Forall (λ p, parses fs self p.1) ok ∧ csv_of fs self p.1 = Raised e.
Proof.
  induction pairs as [|p pairs IH]; [by left|].
  destruct (csv_of fs self p.1) as [rows|e] eqn:Hp.
  - destruct IH as [Hall|(ok & q & rest & e & -> & Hok & Hq)].
    + left. constructor; [by exists rows|done].
    + right. exists (p :: ok), q, rest, e. split_and!; [done| |done].
      constructor; [by exists rows|done].
  - right. by exists [], p, pairs, e.
Qed.

Lemma concat_frames_cons (frames : list DataFrame) :
  frames ≠ [] → concat frames = Returned (mjoin frames).
Proof. by destruct frames. Qed.

(** A load whose files all parse, and that has at least one, returns the
    sorted concatenation and stores it with the recorded locations. *)
Lemma batch_read_Returned `{K : Argsort} fs file_names locs self :
  let fns := discovered fs self file_names in
  let pairs := pairing fns locs in
  Forall (λ p, parses fs self p.1) pairs → pairs ≠ [] →
  batch_read fs file_names locs self =
    (Returned (sort_index (concatenated fs self pairs)),
     mkReader (data_folder_path self)
              (Some (sort_index (concatenated fs self pairs)))
              (Some (recorded fns locs))).
Proof.
  intros fns pairs Hall Hne. rewrite batch_read_unfold.
  fold fns. fold pairs. rewrite read_all_Returned by done.
  rewrite concat_frames_cons; [done|].
  by destruct pairs.
Qed.

(** A load without files fails at the concatenation, after the locations
    have been recorded. *)
Lemma batch_read_no_files `{K : Argsort} fs file_names locs self :
  let fns := discovered fs self file_names in
  pairing fns locs = [] →
  batch_read fs file_names locs self =
    (Raised ValueError,
     mkReader (data_folder_path self) (measurement_data self)
              (Some (recorded fns locs))).
Proof.
  intros fns Hnil. rewrite batch_read_unfold. fold fns. rewrite Hnil. done.
Qed.

(** A load with a file that does not parse surfaces the exception of the
    first such file. *)
Lemma batch_read_Raised `{K : Argsort} fs file_names locs self ok p rest e :
  pairing (discovered fs self file_names) locs = (ok ++ p :: rest)%list →
  Forall (λ p, parses fs self p.1) ok →
  csv_of fs self p.1 = Raised e →
  batch_read fs file_names locs self =
    (Raised e,
     mkReader (data_folder_path self) (data_after fs self ok) (locations self)).
Proof.
  intros Hpairs Hok Hp. rewrite batch_read_unfold. cbn zeta. rewrite Hpairs.
  by rewrite (read_all_Raised _ _ _ _ e) by done.
Qed.

(** What a load that returns has done. *)
Lemma batch_read_inv `{K : Argsort} fs file_names locs self df self' :
  let fns := discovered fs self file_names in
  let pairs := pairing fns locs in
  batch_read fs file_names locs self = (Returned df, self') →
  Forall (λ p, parses fs self p.1) pairs ∧ pairs ≠ [] ∧
  df = sort_index (concatenated fs self pairs) ∧
  self' = mkReader (data_folder_path self) (Some df) (Some (recorded fns locs)).
Proof.
  intros fns pairs Hrun.
  destruct (first_failure fs self pairs) as [Hall|(ok & p & rest & e & Hp & Hok & He)].
  - destruct (decide (pairs = [])) as [Hnil|Hne].
    + rewrite batch_read_no_files in Hrun by done. done.
    + rewrite batch_read_Returned in Hrun by done.
      injection Hrun as <- <-. done.
  - rewrite (batch_read_Raised _ _ _ _ ok p rest e) in Hrun by done. done.
Qed.


(** ** Sorting by the index *)

Lemma omap_lookup_seq {A} (l1 l : list A) :
  omap (λ i, (l1 ++ l)%list !! i) (seq (length l1) (length l)) = l.
Proof.
  revert l1. induction l as [|x l IH]; intros l1; [done|].
  cbn [length seq]. csimpl.
  rewrite list_lookup_middle by done. f_equal.
  specialize (IH (l1 ++ [x])%list).
  rewrite length_app in IH. cbn [length] in IH.
  rewrite Nat.add_1_r in IH. rewrite <- IH at 2.
  apply list_omap_ext, Forall2_same_length_lookup. split; [done|].
  intros i a b Ha Hb. simplify_eq. by rewrite <- (assoc_L (++)).
Qed.

Lemma take_rows_all (df : DataFrame) :
  omap (λ i, df !! i) (seq 0 (length df)) = df.
Proof. apply (omap_lookup_seq [] df). Qed.

(** Taking rows by a permutation of the positions permutes the frame. *)
Lemma take_rows_Permutation (indexer : list nat) (df : DataFrame) :
  indexer ≡ₚ seq 0 (length df) → take_rows indexer df ≡ₚ df.
Proof.
  intros Hp. unfold take_rows. rewrite Hp. by rewrite (take_rows_all df).
Qed.

Lemma index_take_rows (indexer : list nat) (df : DataFrame) :
  index <$> take_rows indexer df = omap (λ i, (index <$> df) !! i) indexer.
Proof.
  unfold take_rows. rewrite list_fmap_omap.
  apply list_omap_ext, Forall2_same_length_lookup. split; [done|].
  intros i x y Hx Hy. simplify_eq. by rewrite list_lookup_fmap.
Qed.

Section sort_index.

Context {K : Argsort} {KS : ArgsortSpec K}.

(** [sort_index] keeps every row, as often as it occurs. *)
Lemma sort_index_Permutation (df : DataFrame) : sort_index df ≡ₚ df.
Proof.
  unfold sort_index. destruct (is_monotonic_increasing _); [done|].
  apply take_rows_Permutation. by rewrite argsort_perm, length_fmap.
Qed.

(** The index of a sorted frame ascends. *)
Lemma sort_index_Sorted (df : DataFrame) : Sorted Z.le (index <$> sort_index df).
Proof.
  unfold sort_index, is_monotonic_increasing. case_bool_decide; [done|].
  rewrite index_take_rows. apply argsort_sorted.
Qed.

Lemma sort_index_length (df : DataFrame) : length (sort_index df) = length df.
Proof. by rewrite sort_index_Permutation. Qed.

End sort_index.

(** A frame whose index ascends already is returned as it is, whatever the
    kernel. *)
Lemma sort_index_ascending `{K : Argsort} (df : DataFrame) :
  Sorted Z.le (index <$> df) → sort_index df = df.
Proof.
  intros Hs. unfold sort_index, is_monotonic_increasing.
  by rewrite bool_decide_eq_true_2.
Qed.

Lemma Sorted_adjacent {A} (R : relation A) (l : list A) i x y :
  Sorted R l → l !! i = Some x → l !! S i = Some y → R x y.
Proof.
  intros Hs. revert i. induction Hs as [|z l Hs IH Hhd]; intros i Hx Hy; [done|].
  destruct i as [|i].
  - cbn in Hx, Hy. simplify_eq. destruct l as [|w l]; [done|].
    cbn in Hy. simplify_eq. by inversion Hhd.
  - cbn in Hx, Hy. eauto.
Qed.

Lemma adjacent_index (df : DataFrame) i r1 r2 :
  Sorted Z.le (index <$> df) →
  df !! i = Some r1 → df !! S i = Some r2 → index r1 ≤ index r2.
Proof.
  intros Hs H1 H2. apply (Sorted_adjacent Z.le (index <$> df) i); [done|..].
  - by rewrite list_lookup_fmap, H1.
  - by rewrite list_lookup_fmap, H2.
Qed.

(** ** The merging kernel meets the contract *)

#[global] Instance key_le_total : Total key_le.
Proof. intros a b. unfold key_le. lia. Qed.

Lemma zip_seq_lookup (keys : list datetime) (p : datetime * nat) :
  p ∈ zip keys (seq 0 (length keys)) → keys !! p.2 = Some p.1.
Proof.
  intros (i & Hi)%list_elem_of_lookup_1. destruct p as [k j].
  apply lookup_zip_Some in Hi as [Hk Hj]. apply lookup_seq in Hj as [-> _].
  done.
Qed.

#[global] Instance merge_argsort_spec : ArgsortSpec merge_argsort.
Proof.
  split; intros keys; unfold argsort, merge_argsort.
  - rewrite merge_sort_Permutation. rewrite snd_zip; [done|].
    by rewrite length_seq.
  - set (sorted := merge_sort key_le _).
    assert (Hs : Sorted key_le sorted) by apply (Sorted_merge_sort key_le).
    assert (Hin : ∀ p, p ∈ sorted → keys !! p.2 = Some p.1).
    { intros p Hp. apply zip_seq_lookup. subst sorted.
      by rewrite merge_sort_Permutation in Hp. }
    clearbody sorted. induction Hs as [|p l Hs IH Hhd]; [constructor|].
    csimpl. rewrite (Hin p) by apply list_elem_of_here. csimpl.
    constructor.
    + apply IH. intros q Hq. apply Hin. by apply list_elem_of_further.
    + destruct Hhd as [|q l' Hpq]; [constructor|].
      csimpl. rewrite (Hin q) by (apply list_elem_of_further, list_elem_of_here).
      csimpl. by constructor.
Qed.


(** ** Label slices of an ascending frame *)

Lemma searchsorted_left_cons k keys s :
  searchsorted_left (k :: keys) s =
    ((if bool_decide (k < s)%Z then 1 else 0) + searchsorted_left keys s)%nat.
Proof.
  unfold searchsorted_left. rewrite filter_cons.
  case_decide; [by rewrite bool_decide_eq_true_2|by rewrite bool_decide_eq_false_2].
Qed.

Lemma searchsorted_right_cons k keys e :
  searchsorted_right (k :: keys) e =
    ((if bool_decide (k ≤ e)%Z then 1 else 0) + searchsorted_right keys e)%nat.
Proof.
  unfold searchsorted_right. rewrite filter_cons.
  case_decide; [by rewrite bool_decide_eq_true_2|by rewrite bool_decide_eq_false_2].
Qed.

Lemma searchsorted_left_0 keys s :
  Forall (λ k, s ≤ k) keys → searchsorted_left keys s = 0%nat.
Proof.
  induction 1 as [|k keys Hk _ IH]; [done|].
  rewrite searchsorted_left_cons, IH, bool_decide_eq_false_2; [done|lia].
Qed.

Lemma searchsorted_right_0 keys e :
  Forall (λ k, e < k) keys → searchsorted_right keys e = 0%nat.
Proof.
  induction 1 as [|k keys Hk _ IH]; [done|].
  rewrite searchsorted_right_cons, IH, bool_decide_eq_false_2; [done|lia].
Qed.

Lemma in_range_nil_above (df : list Row) s e :
  Forall (λ k, e < k) (index <$> df) → in_range s e df = [].
Proof.
  unfold in_range. induction df as [|r df IH]; [done|]. csimpl.
  intros [Hr Hdf]%Forall_cons. cbn in Hr. rewrite filter_cons_False by (cbn; lia). auto.
Qed.

(** On an ascending index the rows between the two binary-search bounds are
    the rows whose label lies in the closed range. *)
Lemma slice_in_range (df : list Row) s e :
  Sorted Z.le (index <$> df) →
  slice (searchsorted_left (index <$> df) s)
        (searchsorted_right (index <$> df) e) df = in_range s e df.
Proof.
  intros Hs%(Sorted_StronglySorted Z.le).
  induction df as [|r df IH]; [done|].
  apply StronglySorted_inv in Hs as [Hs Hall]. specialize (IH Hs).
  rewrite fmap_cons, searchsorted_left_cons, searchsorted_right_cons.
  unfold in_range in *. unfold slice in *.
  case_bool_decide as Hr; case_bool_decide as Hl.
  - rewrite filter_cons_False by (cbn; lia). exact IH.
  - rewrite filter_cons_True by (cbn; lia).
    rewrite searchsorted_left_0 in *.
    + cbn in *. rewrite Nat.sub_0_r, drop_0 in IH. by rewrite IH.
    + eapply Forall_impl; [exact Hall|]. cbn. intros; lia.
    + eapply Forall_impl; [exact Hall|]. cbn. intros; lia.
  - rewrite filter_cons_False by (cbn; lia).
    rewrite searchsorted_right_0.
    + cbn. fold (in_range s e df). symmetry. apply in_range_nil_above.
      eapply Forall_impl; [exact Hall|]. cbn. intros; lia.
    + eapply Forall_impl; [exact Hall|]. cbn. intros; lia.
  - rewrite filter_cons_False by (cbn; lia).
    rewrite searchsorted_left_0, searchsorted_right_0.
    + cbn. fold (in_range s e df). symmetry. apply in_range_nil_above.
      eapply Forall_impl; [exact Hall|]. cbn. intros; lia.
    + eapply Forall_impl; [exact Hall|]. cbn. intros; lia.
    + eapply Forall_impl; [exact Hall|]. cbn. intros; lia.
Qed.

Lemma loc_slice_ascending (df : list Row) s e :
  Sorted Z.le (index <$> df) → loc_slice df s e = Returned (in_range s e df).
Proof.
  intros Hs. unfold loc_slice, get_slice_bound, is_monotonic_increasing.
  rewrite bool_decide_eq_true_2 by done. by rewrite slice_in_range.
Qed.


(** ** Queries *)

Lemma get_datetime_limits_run (self : MeasurementFileReader) :
  get_datetime_limits self =
    match measurement_data self with
    | None => (Raised AttributeError, self)
    | Some [] => (Raised IndexError, self)
    | Some (r :: df) => (Returned (index r, index (List.last df r)), self)
    end.
Proof.
  unfold get_datetime_limits. run_body.
  destruct (measurement_data self) as [[|r df]|] eqn:Hd; run_body;
    rewrite ?Hd; run_body; done.
Qed.

(** What [get_measurements] does to the frame once the date range has been
    dealt with. *)
Lemma get_measurements_unbounded (self : MeasurementFileReader) start stop locs :
  start = None ∨ stop = None →
  get_measurements start stop locs self =
    if truthy_list locs then
      match measurement_data self with
      | None => (Raised AttributeError, self)
      | Some df => (Returned (Some (isin_location (default [] locs) df)), self)
      end
    else (Returned (measurement_data self), self).
Proof.
  intros Hb. unfold get_measurements.
  run_body. destruct start as [s|], stop as [e|]; try (by destruct Hb);
    destruct (truthy_list locs); by destruct (measurement_data self).
Qed.

Lemma get_measurements_bounded (self : MeasurementFileReader) s e locs :
  get_measurements (Some s) (Some e) locs self =
    match measurement_data self with
    | None => (Raised AttributeError, self)
    | Some df =>
        match loc_slice df s e with
        | Raised err => (Raised err, self)
        | Returned sl =>
            (Returned (Some (if truthy_list locs
                             then isin_location (default [] locs) sl else sl)),
             self)
        end
    end.
Proof.
  unfold get_measurements. run_body.
  destruct (measurement_data self) as [df|]; [|done].
  destruct (loc_slice df s e); [|done]. by destruct (truthy_list locs).
Qed.

(** ** The claims *)

(** C2.  After every load that returns, the stored table is the returned
    one and ascends in timestamp from each record to the next, over the
    records of all locations together. *)
Theorem batch_read_sorted {K : Argsort} {KS : ArgsortSpec K} fs file_names locs
    self df self' :
  batch_read fs file_names locs self = (Returned df, self') →
  measurement_data self' = Some df ∧
  ∀ i r1 r2, df !! i = Some r1 → df !! S i = Some r2 → index r1 ≤ index r2.
Proof.
  intros (_ & _ & Hdf & ->)%batch_read_inv. split; [done|].
  intros i r1 r2. apply adjacent_index. rewrite Hdf. apply sort_index_Sorted.
Qed.

Lemma batch_read_sorted_witness :
  let df := [mkRow 30800 105 0 "A"; mkRow 30900 98 0 "B"; mkRow 40800 112 0 "A"] in
  batch_read (K := merge_argsort) fs_demo None None (init "data") =
    (Returned df, mkReader "data" (Some df) (Some ["A"; "B"])) ∧
  ∀ i r1 r2, df !! i = Some r1 → df !! S i = Some r2 → index r1 ≤ index r2.
Proof.
  intros df. split; [vm_compute; reflexivity|].
  apply (batch_read_sorted (K := merge_argsort) fs_demo None None (init "data") df
           (mkReader "data" (Some df) (Some ["A"; "B"]))).
  vm_compute. reflexivity.
Defined.



(** C7.  On a loaded table, a query with exactly one of the two bounds
    filters no dates: it returns what the query without bounds returns, the
    whole table, narrowed to the given locations if there are any. *)
Theorem get_measurements_one_bound folder (df : DataFrame) recorded_locs locs s e :
  let self := mkReader folder (Some df) recorded_locs in
  let unbounded :=
    (Returned (Some (if truthy_list locs
                     then isin_location (default [] locs) df else df)), self) in
  get_measurements None None locs self = unbounded ∧
  get_measurements (Some s) None locs self = unbounded ∧
  get_measurements None (Some e) locs self = unbounded.
Proof.
  intros self unbounded. subst unbounded.
  rewrite !get_measurements_unbounded by auto.
  by destruct (truthy_list locs).
Qed.

(** C9.  The queries only read: whatever the arguments and whether they
    return or raise, [get_datetime_limits] and [get_measurements] leave the
    table and the location list (the whole instance) as they found them. *)
Theorem queries_read_only (self : MeasurementFileReader) start stop locs :
  (get_datetime_limits self).2 = self ∧
  (get_measurements start stop locs self).2 = self.
Proof.
  split.
  - rewrite get_datetime_limits_run.
    by destruct (measurement_data self) as [[|r df]|].
  - destruct start as [s|], stop as [e|].
    + rewrite get_measurements_bounded.
      destruct (measurement_data self) as [df|]; [|done].
      by destruct (loc_slice df s e).
    + rewrite get_measurements_unbounded by auto.
      destruct (truthy_list locs); by destruct (measurement_data self).
    + rewrite get_measurements_unbounded by auto.
      destruct (truthy_list locs); by destruct (measurement_data self).
    + rewrite get_measurements_unbounded by auto.
      destruct (truthy_list locs); by destruct (measurement_data self).
Qed.


(** C1, as the code has it.  When a file of a load does not parse, the
    exception of the first such file surfaces and the location list is the
    one from before the call.  The table is the one from before the call
    only if that file is the first of the load; otherwise the table is the
    frame of the file read just before it, which [read] has stored. *)
Theorem batch_read_failed_source {K : Argsort} fs file_names locs self ok p rest e :
  pairing (discovered fs self file_names) locs = (ok ++ p :: rest)%list →
  Forall (λ q, parses fs self q.1) ok →
  csv_of fs self p.1 = Raised e →
  ∃ self', batch_read fs file_names locs self = (Raised e, self') ∧
    locations self' = locations self ∧
    measurement_data self' =
      match last ok with
      | Some q => Some (frame_of fs self q)
      | None => measurement_data self
      end.
Proof.
  intros Hpairs Hok Hp. eexists. split; [by eapply batch_read_Raised|]. done.
Qed.

Lemma batch_read_failed_source_witness :
  ∃ self', batch_read (K := Numpy.aquicksort) fs_demo None None (init "inbox") =
             (Raised ParserError, self') ∧
    locations self' = None ∧
    measurement_data self' = Some [mkRow 30800 105 0 "A"].
Proof.
  apply (batch_read_failed_source (K := Numpy.aquicksort) fs_demo None None
           (init "inbox") [("A", None)] ("bad", None) [] ParserError).
  - vm_compute. reflexivity.
  - repeat constructor. eexists. vm_compute. reflexivity.
  - vm_compute. reflexivity.
Defined.

(** C1 fails as stated: the load of [inbox] raises on its second file, and
    the table, unset before the call, holds the first file afterwards. *)
Lemma batch_read_not_atomic :
  let self := init "inbox" in
  let result := batch_read (K := Numpy.aquicksort) fs_demo None None self in
  result.1 = Raised ParserError ∧
  measurement_data self = None ∧
  measurement_data result.2 = Some [mkRow 30800 105 0 "A"] ∧
  measurement_data result.2 ≠ measurement_data self.
Proof. vm_compute. by split_and!. Qed.

(** C4, as the code has it.  Loading a folder without csv files raises at
    the concatenation; the table stays unset and the location list becomes
    the recorded one.  While the table is unset, [get_datetime_limits]
    raises on the attribute access, and [get_measurements] raises exactly
    when it has a date range or locations to apply; without them it returns
    the unset table. *)
Theorem unloaded_reader {K : Argsort} fs self locs :
  measurement_data self = None →
  glob_csv fs (data_folder_path self) = [] →
  let self' := mkReader (data_folder_path self) None (Some (recorded [] locs)) in
  batch_read fs None locs self = (Raised ValueError, self') ∧
  get_datetime_limits self' = (Raised AttributeError, self') ∧
  get_datetime_limits self = (Raised AttributeError, self) ∧
  ∀ start stop qlocs,
    get_measurements start stop qlocs self =
      if dereferences start stop qlocs
      then (Raised AttributeError, self)
      else (Returned None, self).
Proof.
  intros Hdata Hglob self'. split_and!.
  - rewrite batch_read_no_files.
    + cbn. rewrite Hglob, Hdata. done.
    + cbn. rewrite Hglob. unfold pairing. by destruct (truthy_list locs).
  - by rewrite get_datetime_limits_run.
  - by rewrite get_datetime_limits_run, Hdata.
  - intros [s|] [e|] qlocs; cbn.
    + by rewrite get_measurements_bounded, Hdata.
    + rewrite get_measurements_unbounded, Hdata by auto. by destruct (truthy_list qlocs).
    + rewrite get_measurements_unbounded, Hdata by auto. by destruct (truthy_list qlocs).
    + rewrite get_measurements_unbounded, Hdata by auto. by destruct (truthy_list qlocs).
Qed.

Lemma unloaded_reader_witness :
  let self := init "empty" in
  let self' := mkReader "empty" None (Some []) in
  batch_read (K := Numpy.aquicksort) fs_demo None None self = (Raised ValueError, self') ∧
  get_datetime_limits self' = (Raised AttributeError, self') ∧
  get_datetime_limits self = (Raised AttributeError, self) ∧
  ∀ start stop qlocs,
    get_measurements start stop qlocs self =
      if dereferences start stop qlocs
      then (Raised AttributeError, self)
      else (Returned None, self).
Proof.
  apply (unloaded_reader (K := Numpy.aquicksort) fs_demo (init "empty") None).
  - reflexivity.
  - vm_compute. reflexivity.
Defined.

(** C4 fails as stated: the load of a folder without csv files raises and
    yields no table, and a query without arguments on a fresh reader
    returns instead of failing. *)
Lemma empty_folder_no_table :
  batch_read (K := Numpy.aquicksort) fs_demo None None (init "empty") =
    (Raised ValueError, mkReader "empty" None (Some [])) ∧
  get_measurements None None None (init "empty") = (Returned None, init "empty").
Proof. split; vm_compute; reflexivity. Qed.

(** C5, as the code has it.  When the folder is missing or is not a
    directory, discovery raises nothing and yields no file name; the load
    then raises at the concatenation, with the table as before and the
    location list recorded. *)
Theorem discovery_without_folder {K : Argsort} fs self locs :
  (∀ entries, fs (data_folder_path self) ≠ Directory entries) →
  glob_csv fs (data_folder_path self) = [] ∧
  discovered fs self None = [] ∧
  batch_read fs None locs self =
    (Raised ValueError,
     mkReader (data_folder_path self) (measurement_data self)
              (Some (recorded [] locs))).
Proof.
  intros Hnodir.
  assert (Hglob : glob_csv fs (data_folder_path self) = []).
  { unfold glob_csv. destruct (fs (data_folder_path self)) eqn:Hfs; [done| |done].
    by destruct (Hnodir entries). }
  split_and!; [done|by cbn; rewrite Hglob|].
  rewrite batch_read_no_files.
  - cbn. by rewrite Hglob.
  - cbn. rewrite Hglob. unfold pairing. by destruct (truthy_list locs).
Qed.

Lemma discovery_without_folder_witness :
  glob_csv fs_demo "nodir" = [] ∧
  discovered fs_demo (init "nodir") None = [] ∧
  batch_read (K := Numpy.aquicksort) fs_demo None None (init "nodir") =
    (Raised ValueError, mkReader "nodir" None (Some [])).
Proof.
  apply (discovery_without_folder (K := Numpy.aquicksort) fs_demo (init "nodir") None).
  intros entries. vm_compute. discriminate.
Defined.

(** C5 fails as stated: for a folder that does not exist, and for a path
    that is a file, discovery yields the empty list without raising, and
    the exception of the load is the [ValueError] of the concatenation. *)
Lemma missing_folder_no_error :
  fs_demo "nodir" = Absent ∧
  glob_csv fs_demo "nodir" = [] ∧
  (batch_read (K := Numpy.aquicksort) fs_demo None None (init "nodir")).1 =
    Raised ValueError ∧
  (∃ parsed, fs_demo "data/A.csv" = CsvFile parsed) ∧
  glob_csv fs_demo "data/A.csv" = [] ∧
  (batch_read (K := Numpy.aquicksort) fs_demo None None (init "data/A.csv")).1 =
    Raised ValueError.
Proof. split_and!; try (vm_compute; reflexivity). eexists. vm_compute. reflexivity. Qed.


(** C6, as the code has it.  The table of a load is the concatenation of
    the frames, reordered so that timestamps ascend: every record is kept,
    as often as it occurs.  When the concatenation ascends already it is
    kept as it is, so records with equal timestamps stay in input order;
    otherwise their order is the sorting kernel's. *)
Theorem batch_read_sorts {K : Argsort} {KS : ArgsortSpec K} fs file_names locs
    self df self' :
  batch_read fs file_names locs self = (Returned df, self') →
  let input := concatenated fs self (pairing (discovered fs self file_names) locs) in
  df ≡ₚ input ∧
  Sorted Z.le (index <$> df) ∧
  (Sorted Z.le (index <$> input) → df = input ∧ keeps_input_order input df).
Proof.
  intros (_ & _ & Hdf & _)%batch_read_inv input. fold input in Hdf.
  rewrite Hdf. split_and!.
  - apply sort_index_Permutation.
  - apply sort_index_Sorted.
  - intros Hs. by rewrite sort_index_ascending.
Qed.

Lemma batch_read_sorts_witness :
  let df := [mkRow 30800 105 0 "A"; mkRow 30900 98 0 "B"; mkRow 40800 112 0 "A"] in
  let input := [mkRow 30800 105 0 "A"; mkRow 40800 112 0 "A"; mkRow 30900 98 0 "B"] in
  df ≡ₚ input ∧
  Sorted Z.le (index <$> df) ∧
  (Sorted Z.le (index <$> input) → df = input ∧ keeps_input_order input df).
Proof.
  apply (batch_read_sorts (K := merge_argsort) fs_demo None None (init "data")
           [mkRow 30800 105 0 "A"; mkRow 30900 98 0 "B"; mkRow 40800 112 0 "A"]
           (mkReader "data"
              (Some [mkRow 30800 105 0 "A"; mkRow 30900 98 0 "B"; mkRow 40800 112 0 "A"])
              (Some ["A"; "B"]))).
  vm_compute. reflexivity.
Defined.

(** C6 fails as stated: in [logs] two sensors log at the same ten instants.
    The load reads [hall] before [attic] and returns a table that ascends
    and holds every record once, but at instant [8] the record of [attic]
    stands before the record of [hall]. *)
Lemma batch_read_reorders_ties :
  let self := init "logs" in
  let input := concatenated fs_demo self (pairing (discovered fs_demo self None) None) in
  ∃ output self',
    batch_read (K := Numpy.aquicksort) fs_demo None None self = (Returned output, self') ∧
    discovered fs_demo self None = ["hall"; "attic"] ∧
    Sorted Z.le (index <$> output) ∧
    output ≡ₚ input ∧
    filter (λ r, index r = 8) input = [mkRow 8 208 0 "hall"; mkRow 8 108 0 "attic"] ∧
    filter (λ r, index r = 8) output = [mkRow 8 108 0 "attic"; mkRow 8 208 0 "hall"] ∧
    ¬ keeps_input_order input output.
Proof.
  intros self input. eexists _, _. split; [vm_compute; reflexivity|].
  split_and!.
  - vm_compute. reflexivity.
  - apply (bool_decide_unpack _). vm_compute. exact I.
  - apply (bool_decide_unpack _). vm_compute. exact I.
  - vm_compute. reflexivity.
  - vm_compute. reflexivity.
  - intros Hkeep. specialize (Hkeep 8). vm_compute in Hkeep. discriminate.
Qed.


(** ** Counting rows *)

Lemma pairing_fst fs_names locs :
  truthy_list locs = false ∨ length (default [] locs) = length fs_names →
  (pairing fs_names locs).*1 = fs_names.
Proof.
  intros Hl. unfold pairing. destruct (truthy_list locs) eqn:Ht.
  - destruct Hl as [|Hl]; [done|]. rewrite <-list_fmap_compose.
    etrans; [|apply (fst_zip fs_names (default [] locs)); lia].
    by apply list_fmap_ext.
  - rewrite <-list_fmap_compose. apply list_fmap_id.
Qed.

Lemma length_with_location loc rows : length (with_location loc rows) = length rows.
Proof. unfold with_location. apply length_fmap. Qed.

Lemma length_concatenated fs self pairs M :
  Forall (λ p, ∃ rows, csv_of fs self p.1 = Returned rows ∧ length rows = M) pairs →
  length (concatenated fs self pairs) = (length pairs * M)%nat.
Proof.
  intros Hall. unfold concatenated. rewrite length_join, <-list_fmap_compose.
  apply sum_list_fmap_same. eapply Forall_impl; [exact Hall|].
  intros p (rows & Hp & Hlen). cbn. unfold frame_of. rewrite Hp.
  by rewrite length_with_location.
Qed.

(** C8, as the code has it.  A load of [N >= 1] files that parse to [M] rows
    each, with locations absent or one per file, returns a table of [N * M]
    records that holds every parsed record as often as it was read; with
    [N] locations given, the location list is the given list. *)
Theorem batch_read_row_count {K : Argsort} {KS : ArgsortSpec K} fs file_names locs
    self N M :
  let fns := discovered fs self file_names in
  length fns = N → (0 < N)%nat →
  (∀ fn, fn ∈ fns → ∃ rows, csv_of fs self fn = Returned rows ∧ length rows = M) →
  truthy_list locs = false ∨ length (default [] locs) = N →
  ∃ df self',
    batch_read fs file_names locs self = (Returned df, self') ∧
    measurement_data self' = Some df ∧
    length df = (N * M)%nat ∧
    df ≡ₚ concatenated fs self (pairing fns locs) ∧
    locations self' = Some (recorded fns locs) ∧
    length (recorded fns locs) = N ∧
    (truthy_list locs = true → recorded fns locs = default [] locs).
Proof.
  intros fns HN Hpos Hrows Hlocs.
  assert (Hfst : (pairing fns locs).*1 = fns).
  { apply pairing_fst. by rewrite HN. }
  assert (Hall : Forall (λ p, ∃ rows, csv_of fs self p.1 = Returned rows ∧
                                length rows = M) (pairing fns locs)).
  { apply Forall_forall. intros p Hp. apply Hrows. rewrite <-Hfst.
    by apply list_elem_of_fmap_2. }
  assert (Hlen : length (pairing fns locs) = N).
  { rewrite <-HN. rewrite <-Hfst at 2. by rewrite length_fmap. }
  eexists _, _. split_and!.
  - apply batch_read_Returned.
    + eapply Forall_impl; [exact Hall|]. intros p (rows & Hp & _). by exists rows.
    + intros Hnil. fold fns in Hnil. rewrite Hnil in Hlen. cbn in Hlen. lia.
  - done.
  - rewrite sort_index_length. fold fns.
    by rewrite (length_concatenated _ _ _ M), Hlen.
  - fold fns. apply sort_index_Permutation.
  - done.
  - unfold recorded. destruct Hlocs as [-> | Hl]; [done|].
    by destruct (truthy_list locs).
  - unfold recorded. by intros ->.
Qed.

Lemma batch_read_row_count_witness :
  ∃ df self',
    batch_read (K := merge_argsort) fs_demo None (Some ["ground"; "roof"]) (init "logs") =
      (Returned df, self') ∧
    measurement_data self' = Some df ∧
    length df = (2 * 10)%nat ∧
    df ≡ₚ concatenated fs_demo (init "logs")
            (pairing ["hall"; "attic"] (Some ["ground"; "roof"])) ∧
    locations self' = Some ["ground"; "roof"] ∧
    length ["ground"; "roof"] = 2%nat ∧
    (true = true → ["ground"; "roof"] = ["ground"; "roof"]).
Proof.
  apply (batch_read_row_count (K := merge_argsort) fs_demo None
           (Some ["ground"; "roof"]) (init "logs") 2 10).
  - reflexivity.
  - lia.
  - intros fn Hfn. vm_compute in Hfn.
    apply elem_of_cons in Hfn as [-> | Hfn];
      [|apply elem_of_cons in Hfn as [-> | Hfn]; [|by apply elem_of_nil in Hfn]].
    + eexists. split; vm_compute; reflexivity.
    + eexists. split; vm_compute; reflexivity.
  - right. reflexivity.
Defined.

(** C8 fails as stated: a load of no files raises instead of returning an
    empty table, and a load of two files of ten rows with one location
    returns ten records, not twenty, and records one location. *)
Lemma batch_read_count_off :
  batch_read (K := Numpy.aquicksort) fs_demo (Some []) None (init "logs") =
    (Raised ValueError, mkReader "logs" None (Some [])) ∧
  ∃ df self',
    batch_read (K := Numpy.aquicksort) fs_demo (Some ["hall"; "attic"]) (Some ["ground"])
      (init "logs") = (Returned df, self') ∧
    csv_of fs_demo (init "logs") "hall" = Returned (ten_readings 200) ∧
    csv_of fs_demo (init "logs") "attic" = Returned (ten_readings 100) ∧
    length df = 10%nat ∧
    locations self' = Some ["ground"].
Proof.
  split; [vm_compute; reflexivity|].
  eexists _, _. split_and!; vm_compute; reflexivity.
Qed.


(** ** Lists of different lengths *)

Lemma zip_take_min {A B} (l : list A) (k : list B) :
  zip l k = zip (take (length l `min` length k) l) (take (length l `min` length k) k).
Proof. symmetry. apply zip_with_take_both'; lia. Qed.

(** C10, as the code has it.  A load given files and a non-empty list of
    locations of another length checks no lengths.  It pairs the two lists
    by position up to the shorter one and reads the paired files only: when
    these parse, whatever the other files are, it returns the sorted
    concatenation of their frames and records the whole given location
    list. *)
Theorem batch_read_length_mismatch {K : Argsort} fs fns locs self :
  fns ≠ [] → locs ≠ [] → length fns ≠ length locs →
  let n := (length fns `min` length locs)%nat in
  let pairs := prod_map id Some <$> zip (take n fns) (take n locs) in
  Forall (parses fs self) (take n fns) →
  let df := sort_index (concatenated fs self pairs) in
  batch_read fs (Some fns) (Some locs) self =
    (Returned df, mkReader (data_folder_path self) (Some df) (Some locs)).
Proof.
  intros Hfns Hlocs _ n pairs Hparse df.
  assert (Ht : truthy_list (Some locs) = true) by by destruct locs.
  assert (Hpairs : pairing (discovered fs self (Some fns)) (Some locs) = pairs).
  { unfold pairing. rewrite Ht. cbn. by rewrite (zip_take_min fns locs). }
  rewrite batch_read_Returned; rewrite Hpairs.
  - unfold recorded. by rewrite Ht.
  - apply Forall_forall. intros p Hp. subst pairs.
    apply list_elem_of_fmap in Hp as ([fn loc] & -> & Hp).
    apply elem_of_zip_l in Hp. cbn.
    by eapply (proj1 (Forall_forall _ _) Hparse).
  - subst pairs n. destruct fns, locs; done.
Qed.

Lemma batch_read_length_mismatch_witness :
  let df := [mkRow 30800 105 0 "siteA"; mkRow 40800 112 0 "siteA"] in
  batch_read (K := Numpy.aquicksort) fs_demo (Some ["A"; "bad"; "missing"])
    (Some ["siteA"]) (init "data") =
    (Returned df, mkReader "data" (Some df) (Some ["siteA"])).
Proof.
  apply (batch_read_length_mismatch (K := Numpy.aquicksort) fs_demo
           ["A"; "bad"; "missing"] ["siteA"] (init "data")).
  - discriminate.
  - discriminate.
  - vm_compute. lia.
  - repeat constructor. eexists. vm_compute. reflexivity.
Defined.

(** C10 fails as stated: with no file and one location the load raises, and
    with one file and an empty list of locations it reads the file although
    nothing is paired with it and records the file name, not the given
    list. *)
Lemma batch_read_mismatch_edges :
  batch_read (K := Numpy.aquicksort) fs_demo (Some []) (Some ["siteA"]) (init "data") =
    (Raised ValueError, mkReader "data" None (Some ["siteA"])) ∧
  batch_read (K := Numpy.aquicksort) fs_demo (Some ["B"]) (Some []) (init "data") =
    (Returned [mkRow 30900 98 0 "B"],
     mkReader "data" (Some [mkRow 30900 98 0 "B"]) (Some ["B"])).
Proof. split; vm_compute; reflexivity. Qed.


(** * Further properties *)

(** ** Reading one file *)



(** A call of [read] that raises has changed nothing: the exception is the
    one of [pd.read_csv], raised before any assignment. *)
Theorem read_raises_unchanged {K : Argsort} fs file_name loc self e self' :
  read fs file_name loc self = (Raised e, self') →
  self' = self ∧ csv_of fs self file_name = Raised e.
Proof.
  rewrite read_run. destruct (csv_of fs self file_name) as [rows|e'] eqn:Hcsv; [done|].
  by intros [= <- <-].
Qed.

Lemma read_raises_unchanged_witness :
  init "inbox" = init "inbox" ∧
  csv_of fs_demo (init "inbox") "bad" = Raised ParserError.
Proof.
  apply (read_raises_unchanged (K := Numpy.aquicksort) fs_demo "bad" None (init "inbox")
           ParserError (init "inbox")).
  vm_compute. reflexivity.
Defined.


(** ** Loading again *)

Lemma pairs_parse_folder fs self1 self2 (pairs : list (string * option string)) :
  data_folder_path self2 = data_folder_path self1 →
  Forall (λ p, parses fs self1 p.1) pairs → Forall (λ p, parses fs self2 p.1) pairs.
Proof.
  intros Hf Hall. eapply Forall_impl; [exact Hall|]. intros p [rows Hp].
  exists rows. by rewrite (csv_of_folder _ _ _ _ Hf).
Qed.

Lemma concatenated_folder fs self1 self2 pairs :
  data_folder_path self2 = data_folder_path self1 →
  concatenated fs self2 pairs = concatenated fs self1 pairs.
Proof.
  intros Hf. unfold concatenated. f_equal. apply list_fmap_ext.
  intros _ p _. by apply frame_of_folder.
Qed.

(** A load that returns replaces the table and the location list wholesale:
    what it returns and leaves behind depends on the folder, the files and
    the arguments only, not on what the reader held before.  In particular
    the same load run again on its own result returns the same table and
    changes nothing. *)
Theorem batch_read_replaces_state {K : Argsort} fs file_names locs self1 self2 df self' :
  data_folder_path self2 = data_folder_path self1 →
  batch_read fs file_names locs self1 = (Returned df, self') →
  batch_read fs file_names locs self2 = (Returned df, self') ∧
  batch_read fs file_names locs self' = (Returned df, self').
Proof.
  intros Hf (Hall & Hne & -> & ->)%batch_read_inv.
  assert (Hgen : ∀ self, data_folder_path self = data_folder_path self1 →
    batch_read fs file_names locs self =
      (Returned (sort_index (concatenated fs self1
         (pairing (discovered fs self1 file_names) locs))),
       mkReader (data_folder_path self1)
         (Some (sort_index (concatenated fs self1
            (pairing (discovered fs self1 file_names) locs))))
         (Some (recorded (discovered fs self1 file_names) locs)))).
  { intros self Hs.
    assert (Hd : discovered fs self file_names = discovered fs self1 file_names).
    { unfold discovered. by rewrite Hs. }
    rewrite batch_read_Returned; rewrite Hd.
    - by rewrite (concatenated_folder _ _ _ _ Hs), Hs.
    - by apply (pairs_parse_folder fs self1).
    - done. }
  split; by apply Hgen.
Qed.

Lemma batch_read_replaces_state_witness :
  let df := [mkRow 30800 105 0 "A"; mkRow 30900 98 0 "B"; mkRow 40800 112 0 "A"] in
  let self' := mkReader "data" (Some df) (Some ["A"; "B"]) in
  batch_read (K := Numpy.aquicksort) fs_demo None None
    (mkReader "data" (Some []) (Some ["old"])) = (Returned df, self') ∧
  batch_read (K := Numpy.aquicksort) fs_demo None None self' = (Returned df, self').
Proof.
  intros df self'.
  apply (batch_read_replaces_state (K := Numpy.aquicksort) fs_demo None None
           (init "data") (mkReader "data" (Some []) (Some ["old"])) df self').
  - reflexivity.
  - vm_compute. reflexivity.
Defined.

(** ** Locations of the loaded records *)

Lemma elem_of_take_rows (indexer : list nat) (df : list Row) r :
  r ∈ take_rows indexer df → r ∈ df.
Proof.
  unfold take_rows. intros (i & _ & Hi)%list_elem_of_omap.
  by eapply list_elem_of_lookup_2.
Qed.

Lemma elem_of_sort_index {K : Argsort} (df : list Row) r :
  r ∈ sort_index df → r ∈ df.
Proof.
  unfold sort_index. destruct (is_monotonic_increasing _); [done|].
  apply elem_of_take_rows.
Qed.

Lemma elem_of_concatenated fs self pairs r :
  r ∈ concatenated fs self pairs →
  ∃ p, p ∈ pairs ∧ location r = label_of p.
Proof.
  unfold concatenated. intros (frame & Hr & Hframe)%list_elem_of_join.
  apply list_elem_of_fmap in Hframe as (p & -> & Hp). exists p. split; [done|].
  unfold frame_of in Hr. destruct (csv_of fs self p.1); [|by apply elem_of_nil in Hr].
  unfold with_location in Hr. by apply list_elem_of_fmap in Hr as (raw & -> & _).
Qed.

(** After a load that returns, every record of the table carries one of the
    recorded locations, provided no given location is the empty string (an
    empty location makes [read] label the rows with the file name
    instead). *)
Theorem batch_read_locations_cover {K : Argsort} fs file_names locs self df self' :
  batch_read fs file_names locs self = (Returned df, self') →
  Forall (λ l, l ≠ "") (default [] locs) →
  ∃ ls, locations self' = Some ls ∧ ∀ r, r ∈ df → location r ∈ ls.
Proof.
  intros (_ & _ & -> & ->)%batch_read_inv Hlocs.
  eexists. split; [done|]. intros r Hr%elem_of_sort_index.
  apply elem_of_concatenated in Hr as (p & Hp & ->).
  unfold pairing, recorded in *. destruct (truthy_list locs) eqn:Ht.
  - apply list_elem_of_fmap in Hp as ([fn l] & -> & Hp).
    apply elem_of_zip_r in Hp. unfold label_of. cbn.
    assert (Hl : l ≠ "") by by eapply (proj1 (Forall_forall _ _) Hlocs).
    apply String.eqb_neq in Hl. by rewrite Hl.
  - apply list_elem_of_fmap in Hp as (fn & -> & Hp). done.
Qed.

Lemma batch_read_locations_cover_witness :
  ∃ ls, locations (mkReader "data"
                     (Some [mkRow 30800 105 0 "siteA"; mkRow 30900 98 0 "siteB";
                            mkRow 40800 112 0 "siteA"])
                     (Some ["siteA"; "siteB"])) = Some ls ∧
    ∀ r, r ∈ [mkRow 30800 105 0 "siteA"; mkRow 30900 98 0 "siteB";
              mkRow 40800 112 0 "siteA"] → location r ∈ ls.
Proof.
  apply (batch_read_locations_cover (K := Numpy.aquicksort) fs_demo None
           (Some ["siteA"; "siteB"]) (init "data")).
  - vm_compute. reflexivity.
  - repeat constructor; discriminate.
Defined.


(** ** Tables without equal timestamps *)

#[global] Instance index_le_trans : Transitive index_le.
Proof. intros r1 r2 r3. unfold index_le. lia. Qed.

Lemma Sorted_index_le (df : list Row) :
  Sorted Z.le (index <$> df) → Sorted index_le df.
Proof.
  induction df as [|r df IH]; [constructor|].
  rewrite fmap_cons. intros [Hs Hhd]%Sorted_inv. constructor; [by apply IH|].
  destruct df as [|r' df]; constructor. by inversion Hhd.
Qed.

(** Two ascending arrangements of the same records are equal when no two
    different records share a timestamp. *)
Lemma ascending_unique (df1 df2 : list Row) :
  (∀ r1 r2, r1 ∈ df1 → r2 ∈ df1 → index r1 = index r2 → r1 = r2) →
  Sorted Z.le (index <$> df1) → Sorted Z.le (index <$> df2) →
  df1 ≡ₚ df2 → df1 = df2.
Proof.
  intros Hties Hs1%Sorted_index_le Hs2%Sorted_index_le Hp.
  apply (Sorted_unique_strong index_le); [|done..].
  intros r1 r2 Hr1 Hr2 H12 H21. apply Hties; [done| |].
  - by rewrite Hp.
  - unfold index_le in *. lia.
Qed.

Lemma pairing_no_locations_Permutation fns1 fns2 :
  fns1 ≡ₚ fns2 → pairing fns1 None ≡ₚ pairing fns2 None.
Proof. unfold pairing. cbn. by intros ->. Qed.

(** When no two different records share a timestamp, the table of a load
    without explicit locations does not depend on the order in which the
    files are given, nor on the sorting kernel. *)
Theorem batch_read_order_irrelevant {K1 : Argsort} {KS1 : ArgsortSpec K1}
    {K2 : Argsort} {KS2 : ArgsortSpec K2} fs fns1 fns2 self df1 self1 df2 self2 :
  fns1 ≡ₚ fns2 →
  batch_read (K := K1) fs (Some fns1) None self = (Returned df1, self1) →
  batch_read (K := K2) fs (Some fns2) None self = (Returned df2, self2) →
  (∀ r1 r2, r1 ∈ df1 → r2 ∈ df1 → index r1 = index r2 → r1 = r2) →
  df1 = df2.
Proof.
  intros Hfns (_ & _ & Hdf1 & _)%batch_read_inv (_ & _ & Hdf2 & _)%batch_read_inv Hties.
  cbn in Hdf1, Hdf2. apply ascending_unique; [done|..].
  - rewrite Hdf1. apply sort_index_Sorted.
  - rewrite Hdf2. apply sort_index_Sorted.
  - rewrite Hdf1, Hdf2, !sort_index_Permutation. unfold concatenated.
    by rewrite (pairing_no_locations_Permutation _ _ Hfns).
Qed.

Lemma batch_read_order_irrelevant_witness :
  [mkRow 30800 105 0 "A"; mkRow 30900 98 0 "B"; mkRow 40800 112 0 "A"] =
  [mkRow 30800 105 0 "A"; mkRow 30900 98 0 "B"; mkRow 40800 112 0 "A"].
Proof.
  apply (batch_read_order_irrelevant (K1 := merge_argsort) (K2 := merge_argsort)
           fs_demo ["A"; "B"] ["B"; "A"] (init "data")
           _ (mkReader "data"
                (Some [mkRow 30800 105 0 "A"; mkRow 30900 98 0 "B"; mkRow 40800 112 0 "A"])
                (Some ["A"; "B"]))
           _ (mkReader "data"
                (Some [mkRow 30800 105 0 "A"; mkRow 30900 98 0 "B"; mkRow 40800 112 0 "A"])
                (Some ["B"; "A"]))).
  - apply perm_swap.
  - vm_compute. reflexivity.
  - vm_compute. reflexivity.
  - intros r1 r2 Hr1 Hr2.
    repeat (apply elem_of_cons in Hr1 as [-> | Hr1]);
      repeat (apply elem_of_cons in Hr2 as [-> | Hr2]);
      try (by apply elem_of_nil in Hr1); try (by apply elem_of_nil in Hr2);
      cbn; intros; (done || lia).
Defined.

(** ** Discovered files *)

Lemma substring_whole (s : string) : String.substring 0 (String.length s) s = s.
Proof. induction s as [|c s IH]; [done|]. cbn. by rewrite IH. Qed.

Lemma substring_split (s : string) (n : nat) :
  (n ≤ String.length s)%nat →
  String.substring 0 n s +:+ String.substring n (String.length s - n) s = s.
Proof.
  revert n. induction s as [|c s IH]; intros n Hn.
  - cbn in Hn. by replace n with 0%nat by lia.
  - destruct n as [|n].
    + by rewrite Nat.sub_0_r, substring_whole.
    + cbn in Hn. cbn [String.length Nat.sub String.substring].
      change (String c (String.substring 0 n s +:+
                        String.substring n (String.length s - n) s) = String c s).
      f_equal. apply IH. lia.
Qed.

(** The file [read] opens for a discovered entry is the entry itself: for a
    name matching [*.csv], stripping the suffix and appending [.csv] gives
    the name back, except for the file named [.csv], whose stem is the whole
    name and which the load looks up as [.csv.csv]. *)
Theorem stem_round_trip (name : string) :
  matches_csv name = true →
  (stem name +:+ ".csv" = name ↔ name ≠ ".csv").
Proof.
  unfold matches_csv, stem, last_chars.
  intros [Hlen Hsuf]%andb_prop. apply Nat.leb_le in Hlen.
  apply String.eqb_eq in Hsuf.
  destruct (4 <? String.length name)%nat eqn:Hlt.
  - apply Nat.ltb_lt in Hlt. split.
    + intros _ ->. cbn in Hlt. lia.
    + intros _.
      pose proof (substring_split name (String.length name - 4)) as Hsplit.
      replace (String.length name - (String.length name - 4))%nat
        with 4%nat in Hsplit by lia.
      rewrite Hsuf in Hsplit. apply Hsplit. lia.
  - apply Nat.ltb_ge in Hlt. assert (Hl : String.length name = 4%nat) by lia.
    rewrite Hl in Hsuf. cbn in Hsuf. rewrite <-Hl, substring_whole in Hsuf.
    subst name. split; [discriminate|done].
Qed.

Lemma stem_round_trip_witness :
  stem "hall.csv" +:+ ".csv" = "hall.csv" ↔ "hall.csv" ≠ ".csv".
Proof. apply (stem_round_trip "hall.csv"). reflexivity. Defined.


(** ** Limits of the log *)

Lemma last_cons_default (df : list Row) r2 r :
  List.last (r2 :: df) r = List.last df r2.
Proof.
  revert r2 r. induction df as [|a df IH]; intros r2 r; [done|].
  change (List.last (r2 :: a :: df) r) with (List.last (a :: df) r).
  by rewrite !IH.
Qed.


Lemma ascending_first_last (df : list Row) r :
  Sorted Z.le (index <$> (r :: df)) →
  ∀ r', r' ∈ r :: df → index r ≤ index r' ≤ index (List.last df r).
Proof.
  intros Hs%Sorted_index_le%(Sorted_StronglySorted index_le).
  revert r Hs. induction df as [|r2 df IH]; intros r Hs r' Hr'.
  - apply list_elem_of_singleton in Hr' as ->. cbn. lia.
  - apply StronglySorted_inv in Hs as [Hs Hall].
    rewrite last_cons_default.
    assert (H12 : index r ≤ index r2).
    { apply (proj1 (Forall_forall _ _) Hall), list_elem_of_here. }
    apply elem_of_cons in Hr' as [-> | Hr'].
    + specialize (IH r2 Hs r2 (list_elem_of_here _ _)). lia.
    + specialize (IH r2 Hs r' Hr'). lia.
Qed.

Lemma last_elem_of (df : list Row) r : List.last df r ∈ r :: df.
Proof.
  revert r. induction df as [|r2 df IH]; intros r; [apply list_elem_of_here|].
  rewrite last_cons_default. apply list_elem_of_further, IH.
Qed.

(** After a load that returns a table with at least one record,
    [get_datetime_limits] returns the earliest and the latest timestamp of
    the table: both are timestamps of records, and every record lies
    between them. *)
Theorem get_datetime_limits_bounds {K : Argsort} {KS : ArgsortSpec K} fs file_names
    locs self df self' :
  batch_read fs file_names locs self = (Returned df, self') →
  df ≠ [] →
  ∃ lo hi,
    get_datetime_limits self' = (Returned (lo, hi), self') ∧
    lo ∈ index <$> df ∧ hi ∈ index <$> df ∧
    ∀ r, r ∈ df → lo ≤ index r ≤ hi.
Proof.
  intros (_ & _ & Hdf & ->)%batch_read_inv Hne.
  assert (Hs : Sorted Z.le (index <$> df)) by (rewrite Hdf; apply sort_index_Sorted).
  clear Hdf. destruct df as [|r df]; [done|].
  exists (index r), (index (List.last df r)). split_and!.
  - by rewrite get_datetime_limits_run.
  - apply list_elem_of_fmap_2, list_elem_of_here.
  - apply list_elem_of_fmap_2, last_elem_of.
  - by apply ascending_first_last.
Qed.

Lemma get_datetime_limits_bounds_witness :
  let df := [mkRow 30800 105 0 "A"; mkRow 30900 98 0 "B"; mkRow 40800 112 0 "A"] in
  let self' := mkReader "data" (Some df) (Some ["A"; "B"]) in
  ∃ lo hi,
    get_datetime_limits self' = (Returned (lo, hi), self') ∧
    lo ∈ index <$> df ∧ hi ∈ index <$> df ∧
    ∀ r, r ∈ df → lo ≤ index r ≤ hi.
Proof.
  intros df self'.
  apply (get_datetime_limits_bounds (K := merge_argsort) fs_demo None None (init "data")).
  - vm_compute. reflexivity.
  - discriminate.
Defined.

(** A load of files without rows returns an empty table, and
    [get_datetime_limits] then raises [IndexError]. *)
Theorem get_datetime_limits_no_rows {K : Argsort} fs file_names locs self self' :
  batch_read fs file_names locs self = (Returned [], self') →
  get_datetime_limits self' = (Raised IndexError, self').
Proof.
  intros (_ & _ & _ & ->)%batch_read_inv. by rewrite get_datetime_limits_run.
Qed.

(** Files that parse to no rows make a load that returns the empty table:
    the case of the theorem above occurs. *)
Lemma batch_read_no_rows {K : Argsort} fs fns self :
  fns ≠ [] → Forall (λ fn, csv_of fs self fn = Returned []) fns →
  batch_read fs (Some fns) None self =
    (Returned [], mkReader (data_folder_path self) (Some []) (Some fns)).
Proof.
  intros Hne Hall.
  assert (Hc : concatenated fs self (pairing fns None) = []).
  { unfold concatenated, pairing. cbn. rewrite <-list_fmap_compose.
    apply join_nil, Forall_fmap. eapply Forall_impl; [exact Hall|].
    intros fn Hfn. cbn. unfold frame_of. cbn. by rewrite Hfn. }
  rewrite batch_read_Returned; change (discovered fs self (Some fns)) with fns.
  - rewrite Hc. done.
  - unfold pairing. cbn. apply Forall_fmap. eapply Forall_impl; [exact Hall|].
    intros fn Hfn. by exists [].
  - unfold pairing. cbn. by destruct fns.
Qed.

Lemma get_datetime_limits_no_rows_witness :
  let fs : FileSystem := λ path,
    if String.eqb path "new/hall.csv" then CsvFile (Returned []) else Absent in
  get_datetime_limits (mkReader "new" (Some []) (Some ["hall"])) =
    (Raised IndexError, mkReader "new" (Some []) (Some ["hall"])).
Proof.
  intros fs.
  apply (get_datetime_limits_no_rows (K := Numpy.aquicksort) fs (Some ["hall"]) None
           (init "new")).
  vm_compute. reflexivity.
Defined.

(** ** Queries on a loaded table *)

Lemma in_range_all (df : list Row) s e :
  (∀ r, r ∈ df → s ≤ index r ≤ e) → in_range s e df = df.
Proof.
  unfold in_range. induction df as [|r df IH]; intros Hall; [done|].
  rewrite filter_cons_True by apply Hall, list_elem_of_here.
  f_equal. apply IH. intros r' Hr'. by apply Hall, list_elem_of_further.
Qed.

(** Asking for the range between the limits of the log returns the whole
    table. *)
Theorem get_measurements_between_limits {K : Argsort} {KS : ArgsortSpec K} fs
    file_names locs self df self' lo hi :
  batch_read fs file_names locs self = (Returned df, self') →
  get_datetime_limits self' = (Returned (lo, hi), self') →
  get_measurements (Some lo) (Some hi) None self' = (Returned (Some df), self').
Proof.
  intros (_ & _ & Hdf & ->)%batch_read_inv.
  assert (Hs : Sorted Z.le (index <$> df)) by (rewrite Hdf; apply sort_index_Sorted).
  clear Hdf. rewrite get_datetime_limits_run, get_measurements_bounded.
  cbn [measurement_data]. rewrite loc_slice_ascending by done. cbn [truthy_list].
  destruct df as [|r df]; [done|]. intros [= <- <-].
  rewrite in_range_all; [done|]. by apply ascending_first_last.
Qed.

Lemma get_measurements_between_limits_witness :
  let df := [mkRow 30800 105 0 "A"; mkRow 30900 98 0 "B"; mkRow 40800 112 0 "A"] in
  let self' := mkReader "data" (Some df) (Some ["A"; "B"]) in
  get_measurements (Some 30800) (Some 40800) None self' = (Returned (Some df), self').
Proof.
  intros df self'.
  apply (get_measurements_between_limits (K := merge_argsort) fs_demo None None
           (init "data")).
  - vm_compute. reflexivity.
  - vm_compute. reflexivity.
Defined.







(** ** Charts *)



(** ** The dashboard script *)


Lemma startup_unfold {K : Argsort} fs day :
  startup fs day =
    match batch_read fs None None (init script_folder) with
    | (Raised e, _) => inl (ReaderError e)
    | (Returned _, mfr) =>
        match measurement_data mfr with
        | None => inl (ReaderError AttributeError)
        | Some [] => inl (ReaderError IndexError)
        | Some (r :: df) =>
            match locations mfr with
            | None => inl TypeError
            | Some [] => inl (ReaderError IndexError)
            | Some (l :: ls) =>
                inr (mfr,
                     mkSidebar (date_of day (index r),
                                date_of day (index (List.last df r)))
                       (date_of day (index r))
                       (date_of day (index (List.last df r)))
                       (l :: ls) l)
            end
        end
    end.
Proof.
  unfold startup, get_measurement_file_reader.
  destruct (batch_read fs None None (init script_folder)) as [[df0|e] mfr]; [|done].
  rewrite get_datetime_limits_run.
  destruct (measurement_data mfr) as [[|r df]|]; [done| |done].
  destruct (locations mfr) as [[|l ls]|]; done.
Qed.



(** What the script has computed when it gets to its widgets. *)
Lemma startup_inv {K : Argsort} {KS : ArgsortSpec K} fs day mfr sidebar :
  startup fs day = inr (mfr, sidebar) →
  ∃ r df,
    batch_read fs None None (init script_folder) = (Returned (r :: df), mfr) ∧
    measurement_data mfr = Some (r :: df) ∧
    Sorted Z.le (index <$> r :: df) ∧
    sidebar = mkSidebar (date_of day (index r), date_of day (index (List.last df r)))
                (date_of day (index r)) (date_of day (index (List.last df r)))
                (location_options sidebar) (location_default sidebar) ∧
    location_options sidebar = discovered fs (init script_folder) None ∧
    head (location_options sidebar) = Some (location_default sidebar).
Proof.
  rewrite startup_unfold.
  destruct (batch_read fs None None (init script_folder)) as [[df0|e] mfr0] eqn:Hload;
    [|done].
  pose proof Hload as (_ & _ & Hdf0 & Hmfr)%batch_read_inv.
  destruct (measurement_data mfr0) as [[|r df]|] eqn:Hdata; [done| |done].
  destruct (locations mfr0) as [[|l ls]|] eqn:Hlocs; [done| |done].
  intros [= <- <-].
  assert (Heq : df0 = r :: df).
  { rewrite Hmfr in Hdata. cbn in Hdata. congruence. }
  exists r, df. split_and!; [by rewrite <-Heq|done| |done| |done].
  - rewrite <-Heq, Hdf0. apply sort_index_Sorted.
  - cbn. rewrite Hmfr in Hlocs. cbn in Hlocs. unfold recorded in Hlocs.
    cbn in Hlocs. congruence.
Qed.

(** When the script gets to its widgets, the reader holds the loaded table,
    the date picker is set to the days of the earliest and the latest
    record (which are also its limits), and the location picker offers the
    discovered file names with the first one selected. *)
Theorem startup_sidebar {K : Argsort} {KS : ArgsortSpec K} fs day mfr sidebar :
  startup fs day = inr (mfr, sidebar) →
  ∃ df lo hi,
    batch_read fs None None (init script_folder) = (Returned df, mfr) ∧
    get_datetime_limits mfr = (Returned (lo, hi), mfr) ∧
    (∀ r, r ∈ df → lo ≤ index r ≤ hi) ∧
    date_value sidebar = (date_of day lo, date_of day hi) ∧
    date_min_value sidebar = date_of day lo ∧
    date_max_value sidebar = date_of day hi ∧
    location_options sidebar = discovered fs (init script_folder) None ∧
    head (location_options sidebar) = Some (location_default sidebar).
Proof.
  intros (r & df & Hload & Hdata & Hs & Hsb & Hopts & Hhead)%startup_inv.
  exists (r :: df), (index r), (index (List.last df r)).
  split_and!; [done| |by apply ascending_first_last| | | |done|done].
  - by rewrite get_datetime_limits_run, Hdata.
  - by rewrite Hsb.
  - by rewrite Hsb.
  - by rewrite Hsb.
Qed.

Lemma startup_sidebar_witness :
  let df := [mkRow 30800 105 0 "A"; mkRow 30900 98 0 "B"; mkRow 40800 112 0 "A"] in
  let mfr := mkReader "data" (Some df) (Some ["A"; "B"]) in
  let sidebar := mkSidebar (3, 4) 3 4 ["A"; "B"] "A" in
  ∃ df' lo hi,
    batch_read (K := merge_argsort) fs_demo None None (init script_folder) =
      (Returned df', mfr) ∧
    get_datetime_limits mfr = (Returned (lo, hi), mfr) ∧
    (∀ r, r ∈ df' → lo ≤ index r ≤ hi) ∧
    date_value sidebar = (date_of 10000 lo, date_of 10000 hi) ∧
    date_min_value sidebar = date_of 10000 lo ∧
    date_max_value sidebar = date_of 10000 hi ∧
    location_options sidebar = discovered fs_demo (init script_folder) None ∧
    head (location_options sidebar) = Some (location_default sidebar).
Proof.
  intros df mfr sidebar.
  apply (startup_sidebar (K := merge_argsort) fs_demo 10000 mfr sidebar).
  vm_compute. reflexivity.
Defined.








